(** * bplIO: raw keyboard input on top of termios

    A shallow embedding of [src/bplIO.hpp].  The class is a thin wrapper
    around system calls, so the embedding has three layers:

    - the data the code handles ([termios], the two static members);
    - the five member functions, written as programs that issue system
      calls and thread the static members ([Module bplIO]);
    - a model of the operating system that answers those calls
      ([Module Posix]), plus an arbitrary-handler semantics used to state
      what the code does with the calls' return values. *)

From Stdlib Require Import ZArith List Bool Lia.
From Stdlib Require Import Strings.Byte.
Import ListNotations.
Open Scope Z_scope.

Set Implicit Arguments.

(** ** Data *)

(** [struct termios] as <termios.h> declares it on Linux/glibc.  The flag
    words are [tcflag_t] (unsigned 32-bit), [c_cc] has [NCCS] entries. *)
Record termios : Type := mkTermios {
  c_iflag  : Z;
  c_oflag  : Z;
  c_cflag  : Z;
  c_lflag  : Z;
  c_line   : Z;
  c_cc     : list Z;
  c_ispeed : Z;
  c_ospeed : Z
}.

Definition NCCS : nat := 32.

(** Constants of <termios.h> and <sys/ioctl.h> (Linux values). *)
Definition ICANON  : Z := 2.   (* 0000002 *)
Definition ECHO    : Z := 8.   (* 0000010 *)
Definition TCSANOW : Z := 0.
Definition TCIFLUSH : Z := 0.
Definition TCIOFLUSH : Z := 2.

(** Bit positions of the two local-mode flags the specification talks about. *)
Definition ICANON_bit : Z := 1.
Definition ECHO_bit   : Z := 3.

(** Conversion to [unsigned int], the type of [tcflag_t]. *)
Definition to_uint (x : Z) : Z := x mod 2 ^ 32.

Definition tcflag_ok (x : Z) : Prop := 0 <= x < 2 ^ 32.

Definition set_c_lflag (t : termios) (v : Z) : termios :=
  mkTermios (c_iflag t) (c_oflag t) (c_cflag t) v
            (c_line t) (c_cc t) (c_ispeed t) (c_ospeed t).

(** A zero-initialised [termios]: what a static object of that type holds
    before anything is assigned to it. *)
Definition termios_zero : termios :=
  mkTermios 0 0 0 0 0 (repeat 0 NCCS) 0 0.

(** Value of a plain [char] holding byte [b] when converted to [int].
    Whether plain [char] is signed is implementation-defined: it is signed
    on x86 and x86-64 Linux and unsigned on ARM Linux. *)
Definition byte_val (b : byte) : Z := Z.of_N (Byte.to_N b).

Definition char_to_int (char_signed : bool) (b : byte) : Z :=
  if char_signed && (128 <=? byte_val b) then byte_val b - 256 else byte_val b.

(** ** System calls *)

(** The calls the class issues, indexed by what comes back to the caller:
    the return value first, then the contents of the out-parameter.  A call
    with an out-parameter carries the bytes that buffer held before the
    call, since a failing call leaves them as they were. *)
Inductive syscall : Type -> Type :=
| Tcgetattr     (fd : Z) (buf : termios)     : syscall (Z * termios)
| Tcsetattr     (fd : Z) (act : Z) (t : termios) : syscall Z
| IoctlFIONREAD (fd : Z) (buf : Z)           : syscall (Z * Z)
| IoctlTCFLSH   (fd : Z) (arg : Z)           : syscall Z
| Read1         (fd : Z) (buf : byte)        : syscall (Z * byte)
| SetbufNull                                 : syscall unit
| Setlinebuf                                 : syscall unit.

Inductive sysname : Type :=
| N_tcgetattr | N_tcsetattr | N_fionread | N_tcflsh | N_read
| N_setbuf | N_setlinebuf.

Definition name_of {X} (c : syscall X) : sysname :=
  match c with
  | Tcgetattr _ _     => N_tcgetattr
  | Tcsetattr _ _ _   => N_tcsetattr
  | IoctlFIONREAD _ _ => N_fionread
  | IoctlTCFLSH _ _   => N_tcflsh
  | Read1 _ _         => N_read
  | SetbufNull        => N_setbuf
  | Setlinebuf        => N_setlinebuf
  end.

Definition sysname_eq_dec (a b : sysname) : {a = b} + {a <> b}.
Proof. decide equality. Defined.

(** Programs: a tree of system calls ending in a result. *)
Inductive prog (A : Type) : Type :=
| Ret (a : A)
| Sys (X : Type) (c : syscall X) (k : X -> prog A).

Arguments Ret {A} a.
Arguments Sys {A X} c k.

Fixpoint pbind {A B} (p : prog A) (f : A -> prog B) : prog B :=
  match p with
  | Ret a   => f a
  | Sys c k => Sys c (fun x => pbind (k x) f)
  end.

(** ** The class *)

Module bplIO.

(** The static data members. *)
Record statics : Type := mkStatics {
  initialized : bool;
  term_backup : termios
}.

(** [bool bplIO::initialized = false; termios bplIO::term_backup;] *)
Definition statics_init : statics := mkStatics false termios_zero.

Definition STDIN : Z := 0.

(** Member functions run in a state monad over the static members, on
    top of [prog]. *)
Definition M (A : Type) : Type := statics -> prog (A * statics).

Definition ret {A} (a : A) : M A := fun s => Ret (a, s).

Definition bind {A B} (m : M A) (f : A -> M B) : M B :=
  fun s => pbind (m s) (fun '(a, s') => f a s').

Definition call {X} (c : syscall X) : M X :=
  fun s => Sys c (fun x => Ret (x, s)).

Definition get_initialized : M bool := fun s => Ret (initialized s, s).
Definition set_initialized (b : bool) : M unit :=
  fun s => Ret (tt, mkStatics b (term_backup s)).
Definition get_term_backup : M termios := fun s => Ret (term_backup s, s).
Definition set_term_backup (t : termios) : M unit :=
  fun s => Ret (tt, mkStatics (initialized s) t).

Declare Scope bpl_scope.
Delimit Scope bpl_scope with bpl.
Notation "x <- m ;; k" := (bind m (fun x => k))
  (at level 61, m at next level, right associativity) : bpl_scope.
Notation "m ;;; k" := (bind m (fun _ => k))
  (at level 61, right associativity) : bpl_scope.
Notation "' p <- m ;; k" := (bind m (fun p => k))
  (at level 61, p pattern, m at next level, right associativity) : bpl_scope.
Open Scope bpl_scope.

(** [enableIO].  [junk] is what the uninitialised local [term] holds
    when the function is entered. *)
Definition enableIO (junk : termios) : M unit :=
  ini <- get_initialized ;;
  (if negb ini then
     '(_, term) <- call (Tcgetattr STDIN junk) ;;
     set_term_backup term ;;;
     let term := set_c_lflag term
                   (Z.land (c_lflag term) (to_uint (Z.lnot ICANON))) in
     _ <- call (Tcsetattr STDIN TCSANOW term) ;;
     set_initialized true
   else ret tt) ;;;
  call SetbufNull.

(** [disableIO]. *)
Definition disableIO : M unit :=
  call Setlinebuf ;;;
  backup <- get_term_backup ;;
  _ <- call (Tcsetattr STDIN TCSANOW backup) ;;
  ret tt.

(** [_kbhit].  [junk] is the initial content of [bytesWaiting]. *)
Definition _kbhit (junk : Z) : M Z :=
  '(_, bytesWaiting) <- call (IoctlFIONREAD STDIN junk) ;;
  ret bytesWaiting.

(** [_getch].  [junk] is the initial content of [buf[0]]; the returned
    [int] is the plain [char] [buf[0]] converted. *)
Definition _getch (char_signed : bool) (junk : byte) : M Z :=
  '(_, buf0) <- call (Read1 STDIN junk) ;;
  ret (char_to_int char_signed buf0).

(** [_flush]. *)
Definition _flush : M unit :=
  _ <- call (IoctlTCFLSH STDIN 0) ;;
  ret tt.

End bplIO.

(** ** Running a program against an operating system *)

(** How a run ends: with a result and the final system state, or waiting in
    a call that cannot complete yet. *)
Inductive outcome (W A : Type) : Type :=
| Done (a : A) (w : W)
| Blocked.

Arguments Done {W A} a w.
Arguments Blocked {W A}.

(** An operating system answers each call from its state [W]; [None] means
    the caller is suspended in the call. *)
Definition handler (W : Type) : Type :=
  forall X, syscall X -> W -> option (X * W).

Fixpoint exec {W A} (h : handler W) (p : prog A) (w : W) : outcome W A :=
  match p with
  | Ret a   => Done a w
  | Sys c k => match h _ c w with
               | Some (x, w') => exec h (k x) w'
               | None         => Blocked
               end
  end.

(** The calls a run issues, in order. *)
Fixpoint trace {W A} (h : handler W) (p : prog A) (w : W) : list sysname :=
  match p with
  | Ret _   => []
  | Sys c k => name_of c ::
               match h _ c w with
               | Some (x, w') => trace h (k x) w'
               | None         => []
               end
  end.

(** Overwrite the return value of a call's answer, keeping what the call
    stored through its out-parameter. *)
Definition with_status {X} (c : syscall X) (st : Z) : X -> X :=
  match c in syscall X return X -> X with
  | Tcgetattr _ _     => fun r => (st, snd r)
  | Tcsetattr _ _ _   => fun _ => st
  | IoctlFIONREAD _ _ => fun r => (st, snd r)
  | IoctlTCFLSH _ _   => fun _ => st
  | Read1 _ _         => fun r => (st, snd r)
  | SetbufNull        => fun r => r
  | Setlinebuf        => fun r => r
  end.

(** The same operating system, except that every call reports [st]. *)
Definition reporting {W} (st : Z) (h : handler W) : handler W :=
  fun X c w =>
    match h X c w with
    | Some (x, w') => Some (with_status c st x, w')
    | None         => None
    end.

(** ** A model of the operating system *)

Module Posix.

(** Buffering modes of a stdio stream. *)
Inductive bufmode : Type := FullyBuffered | LineBuffered | Unbuffered.

(** What the class can observe or change: whether descriptor 0 is a
    terminal, the attribute set of the terminal, the bytes delivered to
    descriptor 0 and not read yet, and the buffering mode of [stdin]. *)
Record world : Type := mkWorld {
  stdin_tty : bool;
  tty_attrs : termios;
  input     : list byte;
  stdin_buf : bufmode
}.

Definition set_attrs (t : termios) (w : world) : world :=
  mkWorld (stdin_tty w) t (input w) (stdin_buf w).

Definition set_input (q : list byte) (w : world) : world :=
  mkWorld (stdin_tty w) (tty_attrs w) q (stdin_buf w).

Definition set_buf (m : bufmode) (w : world) : world :=
  mkWorld (stdin_tty w) (tty_attrs w) (input w) m.

(** The terminal calls fail with -1 (ENOTTY, EBADF) and change nothing
    unless the descriptor is 0 and refers to a terminal. *)
Definition on_tty (fd : Z) (w : world) : bool := (fd =? 0) && stdin_tty w.

Definition tcgetattr (fd : Z) (buf : termios) (w : world)
  : (Z * termios) * world :=
  if on_tty fd w then ((0, tty_attrs w), w) else ((-1, buf), w).

Definition tcsetattr (fd act : Z) (t : termios) (w : world) : Z * world :=
  if on_tty fd w then
    if (act =? 0) || (act =? 1) then (0, set_attrs t w)       (* TCSANOW, TCSADRAIN *)
    else if act =? 2 then (0, set_input [] (set_attrs t w))  (* TCSAFLUSH *)
    else (-1, w)
  else (-1, w).

(** FIONREAD stores the number of bytes that can be read at once. *)
Definition ioctl_FIONREAD (fd buf : Z) (w : world) : (Z * Z) * world :=
  if fd =? 0 then ((0, Z.of_nat (length (input w))), w) else ((-1, buf), w).

(** TCFLSH with TCIFLUSH or TCIOFLUSH discards the unread input. *)
Definition ioctl_TCFLSH (fd arg : Z) (w : world) : Z * world :=
  if on_tty fd w then
    if (arg =? TCIFLUSH) || (arg =? TCIOFLUSH) then (0, set_input [] w)
    else if arg =? 1 then (0, w)
    else (-1, w)
  else (-1, w).

(** [read(fd, buf, 1)]: takes the oldest pending byte; with nothing pending
    it waits on a terminal and reports end of input (0) elsewhere. *)
Definition read1 (fd : Z) (buf : byte) (w : world)
  : option ((Z * byte) * world) :=
  if fd =? 0 then
    match input w with
    | b :: rest => Some ((1, b), set_input rest w)
    | []        => if stdin_tty w then None else Some ((0, buf), w)
    end
  else Some ((-1, buf), w).

Definition os : handler world :=
  fun X c =>
    match c in syscall X return world -> option (X * world) with
    | Tcgetattr fd buf     => fun w => Some (tcgetattr fd buf w)
    | Tcsetattr fd act t   => fun w => Some (tcsetattr fd act t w)
    | IoctlFIONREAD fd buf => fun w => Some (ioctl_FIONREAD fd buf w)
    | IoctlTCFLSH fd arg   => fun w => Some (ioctl_TCFLSH fd arg w)
    | Read1 fd buf         => fun w => read1 fd buf w
    | SetbufNull           => fun w => Some (tt, set_buf Unbuffered w)
    | Setlinebuf           => fun w => Some (tt, set_buf LineBuffered w)
    end.

(** The environment: bytes arriving on descriptor 0. *)
Definition deliver (bs : list byte) (w : world) : world :=
  set_input (input w ++ bs) w.

(** Whether the terminal driver redisplays what is typed. *)
Definition echo_on (w : world) : bool :=
  stdin_tty w && Z.testbit (c_lflag (tty_attrs w)) ECHO_bit.

Definition canonical (w : world) : bool :=
  stdin_tty w && Z.testbit (c_lflag (tty_attrs w)) ICANON_bit.

End Posix.

(** ** Sequences of [enableIO] / [disableIO] calls *)

Inductive api_call : Type :=
| Enable (junk : termios)
| Disable.

Definition api_prog (c : api_call) : bplIO.M unit :=
  match c with
  | Enable junk => bplIO.enableIO junk
  | Disable     => bplIO.disableIO
  end.

(** Run member functions one after the other, the static members and the
    system state passed along. *)
Fixpoint run_calls (cs : list api_call) (s : bplIO.statics) (w : Posix.world)
  : outcome Posix.world bplIO.statics :=
  match cs with
  | []       => Done s w
  | c :: cs' => match exec Posix.os (api_prog c s) w with
                | Done (_, s') w' => run_calls cs' s' w'
                | Blocked         => Blocked
                end
  end.

(** One member function from given static members in a given system. *)
Definition perform {A} (m : bplIO.M A) (s : bplIO.statics) (w : Posix.world)
  : outcome Posix.world (A * bplIO.statics) :=
  exec Posix.os (m s) w.

(** Number of calls of a given name in a trace. *)
Definition count_calls (n : sysname) (l : list sysname) : nat :=
  count_occ sysname_eq_dec l n.

(** The calls issued by a sequence of member-function calls. *)
Fixpoint calls_trace (cs : list api_call) (s : bplIO.statics) (w : Posix.world)
  : list sysname :=
  match cs with
  | []       => []
  | c :: cs' => trace Posix.os (api_prog c s) w ++
                match exec Posix.os (api_prog c s) w with
                | Done (_, s') w' => calls_trace cs' s' w'
                | Blocked         => []
                end
  end.

(** A member function makes no use of the values its system calls return:
    in any operating system whatsoever, it behaves the same if every call
    reports [st] instead, and it issues no call twice. *)
Definition ignores_status {A} (m : bplIO.M A) : Prop :=
  forall (W : Type) (h : handler W) (st : Z) (s : bplIO.statics) (w : W),
    exec h (m s) w = exec (reporting st h) (m s) w /\
    trace h (m s) w = trace (reporting st h) (m s) w /\
    NoDup (trace h (m s) w).

Import bplIO Posix.

(** ** Vocabulary of the statements *)

(** The attribute set [enableIO] passes to [tcsetattr] when it read [t]. *)
Definition clear_ICANON (t : termios) : termios :=
  set_c_lflag t (Z.land (c_lflag t) (to_uint (Z.lnot ICANON))).

(** [a'] is [a] with the ICANON bit of [c_lflag] clear and nothing else
    changed. *)
Definition only_ICANON_cleared (a a' : termios) : Prop :=
  c_iflag a' = c_iflag a /\
  c_oflag a' = c_oflag a /\
  c_cflag a' = c_cflag a /\
  c_line a' = c_line a /\
  c_cc a' = c_cc a /\
  c_ispeed a' = c_ispeed a /\
  c_ospeed a' = c_ospeed a /\
  Z.testbit (c_lflag a') ICANON_bit = false /\
  Z.testbit (c_lflag a') ECHO_bit = Z.testbit (c_lflag a) ECHO_bit /\
  (forall i, i <> ICANON_bit ->
             Z.testbit (c_lflag a') i = Z.testbit (c_lflag a) i) /\
  tcflag_ok (c_lflag a').

(** What the first [enableIO] stores in [term_backup] when it runs in
    system [w0] with [junk] in its local [term]: the terminal attributes,
    or, when [tcgetattr] fails, what the local held. *)
Definition snapshot_of (w0 : world) (junk : termios) : termios :=
  if stdin_tty w0 then tty_attrs w0 else junk.

(** What stays true once [enableIO] has run: the flag is set, the snapshot
    is the one taken then, and a descriptor that is not a terminal leaves
    the terminal alone. *)
Definition engaged (w0 : world) (junk : termios) (s : statics) (w : world)
  : Prop :=
  s = mkStatics true (snapshot_of w0 junk) /\
  stdin_tty w = stdin_tty w0 /\
  (stdin_tty w0 = false -> tty_attrs w = tty_attrs w0).

(** ** Concrete systems used in examples *)

(** A terminal as a login shell leaves it: canonical input with echo
    ([c_lflag] = ISIG|ICANON|ECHO|ECHOE|ECHOK|ECHOCTL|ECHOKE|IEXTEN). *)
Definition cooked_attrs : termios :=
  mkTermios 1280 5 191 35387 0
            ([3; 28; 127; 21; 4; 0; 1; 0; 17; 19; 26; 0; 18; 15; 23; 22]
               ++ repeat 0 16)
            15 15.

Definition cooked_tty : world := mkWorld true cooked_attrs [] LineBuffered.

(** Standard input redirected from a pipe that holds two bytes. *)
Definition piped_stdin : world :=
  mkWorld false cooked_attrs ["x"%byte; "y"%byte] FullyBuffered.

(** Some content of an uninitialised local [termios]. *)
Definition junk_termios : termios :=
  mkTermios 7 7 7 7 7 (repeat 7 NCCS) 7 7.

(** ** Callers *)

Definition is_disable (c : api_call) : bool :=
  match c with
  | Disable  => true
  | Enable _ => false
  end.

(** The terminal attributes expected after [enableIO] followed by the
    calls [cs], in a system that started as [w0]. *)
Definition attrs_after (w0 : world) (cs : list api_call) : termios :=
  if stdin_tty w0 && negb (existsb is_disable cs)
  then clear_ICANON (tty_attrs w0)
  else tty_attrs w0.

(** The buffering mode of [stdin] a call leaves behind. *)
Definition buf_after (c : api_call) : bufmode :=
  match c with
  | Enable _ => Unbuffered
  | Disable  => LineBuffered
  end.

(** A caller reading several keys: [_getch] once per element of [junks]
    (what [buf] holds on entry to each call), results in call order. *)
Fixpoint getch_n (char_signed : bool) (junks : list byte) : M (list Z) :=
  match junks with
  | []      => ret []
  | j :: js => bind (_getch char_signed j) (fun c =>
               bind (getch_n char_signed js) (fun cs =>
               ret (c :: cs)))
  end.

(** What holds of the static members and the system after a result [o]
    of a member function started from [s] and [w]: nothing but the pending
    input has changed. *)
Definition only_input_changed {A} (s : statics) (w : world)
           (o : outcome world (A * statics)) : Prop :=
  match o with
  | Done (_, s') w' =>
      s' = s /\ stdin_tty w' = stdin_tty w /\
      tty_attrs w' = tty_attrs w /\ stdin_buf w' = stdin_buf w
  | Blocked => True
  end.

(** ** Proof automation *)

(** Case analysis on every answer of the operating system [h]. *)
Ltac answer h :=
  repeat match goal with
         | |- context [h ?X ?c ?w] =>
           let x := fresh "x" in
           let w' := fresh "w" in
           destruct (h X c w) as [[x w']|];
           try (destruct x); cbn
         end.

(** A short concrete trace has no repeated call. *)
Ltac no_repeat :=
  repeat constructor; simpl; intuition discriminate.

(** * Properties *)

(** ** Bit-level facts about [c_lflag &= ~ICANON] *)

Lemma ICANON_is_bit : ICANON = 2 ^ ICANON_bit.
Proof. reflexivity. Qed.

Lemma ECHO_is_bit : ECHO = 2 ^ ECHO_bit.
Proof. reflexivity. Qed.

Lemma mask_bit (i : Z) :
  0 <= i < 32 ->
  Z.testbit (to_uint (Z.lnot ICANON)) i = negb (i =? ICANON_bit).
Proof.
  intros Hi. unfold to_uint.
  rewrite Z.mod_pow2_bits_low by lia.
  rewrite Z.lnot_spec by lia.
  rewrite ICANON_is_bit, Z.pow2_bits_eqb by (unfold ICANON_bit; lia).
  rewrite Z.eqb_sym. reflexivity.
Qed.

Lemma uint_high_bits (x i : Z) :
  tcflag_ok x -> 32 <= i -> Z.testbit x i = false.
Proof.
  intros [H0 H1] Hi.
  destruct (Z.eq_dec x 0) as [->|Hx]; [apply Z.bits_0|].
  apply Z.bits_above_log2; [lia|].
  apply Z.lt_le_trans with 32; [|exact Hi].
  apply Z.log2_lt_pow2; lia.
Qed.

Lemma clear_ICANON_bits (x i : Z) :
  tcflag_ok x ->
  Z.testbit (Z.land x (to_uint (Z.lnot ICANON))) i =
  Z.testbit x i && negb (i =? ICANON_bit).
Proof.
  intros Hx. rewrite Z.land_spec.
  destruct (Z.ltb_spec i 0) as [Hneg|Hpos].
  - rewrite !Z.testbit_neg_r by lia. reflexivity.
  - destruct (Z.ltb_spec i 32) as [Hlo|Hhi].
    + rewrite mask_bit by lia. reflexivity.
    + rewrite (uint_high_bits Hx) by lia. reflexivity.
Qed.

Lemma clear_ICANON_range (x : Z) :
  tcflag_ok x -> tcflag_ok (Z.land x (to_uint (Z.lnot ICANON))).
Proof.
  intros [H0 H1].
  assert (Hm : 0 <= to_uint (Z.lnot ICANON)) by (vm_compute; discriminate).
  assert (Hn : 0 <= Z.land x (to_uint (Z.lnot ICANON)))
    by (apply Z.land_nonneg; left; exact H0).
  split; [exact Hn|].
  destruct (Z.eq_dec (Z.land x (to_uint (Z.lnot ICANON))) 0) as [E|E];
    [rewrite E; reflexivity|].
  assert (Hx : x <> 0) by (intros ->; apply E, Z.land_0_l).
  apply Z.log2_lt_pow2; [lia|].
  pose proof (Z.log2_land x _ H0 Hm) as Hl.
  assert (Z.log2 x < 32) by (apply Z.log2_lt_pow2; lia).
  lia.
Qed.

(** ** What each member function does in the modelled system *)

Lemma perform_enable_first (j : termios) (s : statics) (w : world) :
  initialized s = false ->
  perform (enableIO j) s w =
  if stdin_tty w
  then Done (tt, mkStatics true (tty_attrs w))
            (set_buf Unbuffered (set_attrs (clear_ICANON (tty_attrs w)) w))
  else Done (tt, mkStatics true j) (set_buf Unbuffered w).
Proof.
  destruct s as [ini bk]; simpl; intros ->.
  unfold perform, enableIO, bind, call, get_initialized; cbn.
  unfold tcgetattr, on_tty; cbn.
  destruct (stdin_tty w) eqn:T; cbn;
    unfold tcsetattr, on_tty; cbn; rewrite T; reflexivity.
Qed.

Lemma perform_enable_again (j : termios) (s : statics) (w : world) :
  initialized s = true ->
  perform (enableIO j) s w = Done (tt, s) (set_buf Unbuffered w).
Proof.
  destruct s as [ini bk]; simpl; intros ->. reflexivity.
Qed.

Lemma perform_disable (s : statics) (w : world) :
  perform disableIO s w =
  Done (tt, s)
       (if stdin_tty w
        then set_attrs (term_backup s) (set_buf LineBuffered w)
        else set_buf LineBuffered w).
Proof.
  unfold perform, disableIO, bind, call, get_term_backup; simpl.
  unfold tcsetattr, on_tty; simpl.
  destruct (stdin_tty w); reflexivity.
Qed.

Lemma perform_kbhit (j : Z) (s : statics) (w : world) :
  perform (_kbhit j) s w = Done (Z.of_nat (length (input w)), s) w.
Proof. reflexivity. Qed.

Lemma perform_getch_pending (sg : bool) (j b : byte) (rest : list byte)
      (s : statics) (w : world) :
  input w = b :: rest ->
  perform (_getch sg j) s w = Done (char_to_int sg b, s) (set_input rest w).
Proof.
  intros H. unfold perform, _getch, bind, call; simpl.
  unfold read1; simpl. rewrite H. reflexivity.
Qed.

Lemma perform_getch_empty_tty (sg : bool) (j : byte) (s : statics) (w : world) :
  input w = [] -> stdin_tty w = true ->
  perform (_getch sg j) s w = Blocked.
Proof.
  intros H T. unfold perform, _getch, bind, call; simpl.
  unfold read1; simpl. rewrite H, T. reflexivity.
Qed.

Lemma perform_flush (s : statics) (w : world) :
  perform _flush s w =
  Done (tt, s) (if stdin_tty w then set_input [] w else w).
Proof.
  unfold perform, _flush, bind, call; simpl.
  unfold ioctl_TCFLSH, on_tty; simpl.
  destruct (stdin_tty w); reflexivity.
Qed.

(** ** Sequences of calls *)

Lemma run_calls_app (cs1 cs2 : list api_call) (s : statics) (w : world) :
  run_calls (cs1 ++ cs2) s w =
  match run_calls cs1 s w with
  | Done s' w' => run_calls cs2 s' w'
  | Blocked    => Blocked
  end.
Proof.
  revert s w. induction cs1 as [|c cs1 IH]; intros s w; simpl.
  - reflexivity.
  - destruct (exec os (api_prog c s) w) as [[u s'] w'|]; [apply IH|reflexivity].
Qed.

Lemma engaged_after_first (w0 : world) (junk : termios) :
  exists w1, perform (enableIO junk) statics_init w0
             = Done (tt, mkStatics true (snapshot_of w0 junk)) w1
             /\ engaged w0 junk (mkStatics true (snapshot_of w0 junk)) w1.
Proof.
  rewrite perform_enable_first by reflexivity.
  unfold engaged, snapshot_of.
  destruct (stdin_tty w0) eqn:T; eexists; (split; [reflexivity|]);
    repeat split; simpl; auto; congruence.
Qed.

Lemma engaged_step (w0 : world) (junk : termios) (c : api_call)
      (s : statics) (w : world) :
  engaged w0 junk s w ->
  exists w', exec os (api_prog c s) w = Done (tt, s) w' /\
             engaged w0 junk s w'.
Proof.
  intros (Hs & Ht & Ha). destruct c as [j|]; cbn [api_prog].
  - assert (I : initialized s = true) by (subst s; reflexivity).
    pose proof (perform_enable_again j s w I) as P.
    unfold perform in P. rewrite P.
    eexists; split; [reflexivity|]. repeat split; simpl; auto.
  - pose proof (perform_disable s w) as P.
    unfold perform in P. rewrite P.
    eexists; split; [reflexivity|].
    destruct (stdin_tty w) eqn:T; repeat split; simpl; auto; congruence.
Qed.

Lemma engaged_run (w0 : world) (junk : termios) (cs : list api_call) :
  forall s w, engaged w0 junk s w ->
  exists w', run_calls cs s w = Done s w' /\ engaged w0 junk s w'.
Proof.
  induction cs as [|c cs IH]; intros s w H; simpl.
  - exists w. split; [reflexivity|exact H].
  - destruct (engaged_step c H) as (w1 & E & H1). rewrite E.
    apply IH. exact H1.
Qed.

Lemma run_from_enable (w0 : world) (junk : termios) (cs : list api_call) :
  exists w', run_calls (Enable junk :: cs) statics_init w0
             = Done (mkStatics true (snapshot_of w0 junk)) w'
             /\ engaged w0 junk (mkStatics true (snapshot_of w0 junk)) w'.
Proof.
  destruct (engaged_after_first w0 junk) as (w1 & E & H1).
  cbn [run_calls api_prog]. unfold perform in E. rewrite E.
  apply engaged_run. exact H1.
Qed.

(** C1.  In every sequence of [enableIO]/[disableIO] calls that begins
    with [enableIO], run from process start in any system, the state
    right after each [disableIO] call (the sequence cut after that call
    is [Enable junk :: pre ++ [Disable]]) has the terminal attributes,
    and so the ECHO and ICANON flags, of the state right before the first
    [enableIO]. *)
Theorem C1_disable_restores_pre_enable_flags
        (w0 : world) (junk : termios) (pre : list api_call) :
  exists s w,
    run_calls (Enable junk :: pre ++ [Disable]) statics_init w0 = Done s w /\
    Z.testbit (c_lflag (tty_attrs w)) ECHO_bit
      = Z.testbit (c_lflag (tty_attrs w0)) ECHO_bit /\
    Z.testbit (c_lflag (tty_attrs w)) ICANON_bit
      = Z.testbit (c_lflag (tty_attrs w0)) ICANON_bit /\
    tty_attrs w = tty_attrs w0.
Proof.
  destruct (run_from_enable w0 junk pre) as (w1 & E & Hs & Ht & Ha).
  change (Enable junk :: pre ++ [Disable])
    with ((Enable junk :: pre) ++ [Disable]).
  rewrite run_calls_app, E. cbn [run_calls api_prog].
  pose proof (perform_disable (mkStatics true (snapshot_of w0 junk)) w1) as D.
  unfold perform in D. rewrite D. clear D.
  assert (R : tty_attrs
                (if stdin_tty w1
                 then set_attrs (snapshot_of w0 junk) (set_buf LineBuffered w1)
                 else set_buf LineBuffered w1) = tty_attrs w0).
  { unfold snapshot_of. rewrite Ht.
    destruct (stdin_tty w0) eqn:T; simpl; auto. }
  do 2 eexists. split; [reflexivity|].
  simpl term_backup. rewrite R. auto.
Qed.

(** ** Repeated [enableIO] *)

(** C4.  From process start, [enableIO]; [enableIO]; [disableIO] leaves the
    terminal with the attributes it had before the first [enableIO]: the
    second [enableIO] keeps the snapshot the first one stored. *)
Theorem C4_enable_twice_then_disable_restores
        (w0 : world) (j1 j2 : termios) :
  exists s1 w1 s2 w2 s3 w3,
    perform (enableIO j1) statics_init w0 = Done (tt, s1) w1 /\
    perform (enableIO j2) s1 w1 = Done (tt, s2) w2 /\
    perform disableIO s2 w2 = Done (tt, s3) w3 /\
    term_backup s1 = snapshot_of w0 j1 /\
    term_backup s2 = term_backup s1 /\
    tty_attrs w3 = tty_attrs w0.
Proof.
  rewrite perform_enable_first by reflexivity.
  unfold snapshot_of.
  destruct (stdin_tty w0) eqn:T.
  - do 6 eexists.
    split; [reflexivity|].
    split; [apply perform_enable_again; reflexivity|].
    split; [apply perform_disable|].
    simpl. rewrite T. auto.
  - do 6 eexists.
    split; [reflexivity|].
    split; [apply perform_enable_again; reflexivity|].
    split; [apply perform_disable|].
    simpl. rewrite T. auto.
Qed.

(** ** The pair (flag, snapshot) *)

Lemma trace_enable_first (W : Type) (h : handler W) (j : termios)
      (s : statics) (w : W) :
  initialized s = false ->
  exists rest, trace h (enableIO j s) w = N_tcgetattr :: rest /\
               count_calls N_tcgetattr rest = 0%nat.
Proof.
  destruct s as [ini bk]; simpl; intros ->.
  unfold enableIO, bind, call, get_initialized; cbn.
  destruct (h _ (Tcgetattr STDIN j) w) as [[[r t] w1]|]; cbn.
  - destruct (h _ (Tcsetattr STDIN TCSANOW _) w1) as [[r2 w2]|]; cbn.
    + destruct (h _ SetbufNull w2) as [[u w3]|]; cbn;
        eexists; split; reflexivity.
    + eexists; split; reflexivity.
  - eexists; split; reflexivity.
Qed.

Lemma trace_enable_again (j : termios) (bk : termios) (w : world) :
  trace os (enableIO j (mkStatics true bk)) w = [N_setbuf].
Proof. reflexivity. Qed.

Lemma trace_disable (s : statics) (w : world) :
  trace os (disableIO s) w = [N_setlinebuf; N_tcsetattr].
Proof.
  unfold disableIO, bind, call, get_term_backup; cbn.
  unfold tcsetattr, on_tty; cbn.
  destruct (stdin_tty w); reflexivity.
Qed.

Lemma calls_trace_engaged (w0 : world) (junk : termios)
      (cs : list api_call) :
  forall s w, engaged w0 junk s w ->
  count_calls N_tcgetattr (calls_trace cs s w) = 0%nat.
Proof.
  induction cs as [|c cs IH]; intros s w H; [reflexivity|].
  cbn [calls_trace].
  destruct (engaged_step c H) as (w1 & E & H1). rewrite E.
  unfold count_calls in *. rewrite count_occ_app, (IH _ _ H1).
  destruct H as (Hs & _). subst s.
  destruct c as [j|]; cbn [api_prog].
  - rewrite trace_enable_again. reflexivity.
  - rewrite trace_disable. reflexivity.
Qed.

(** C5.  From process start, the first [enableIO] reads the terminal
    attributes before it issues any other call, stores them and sets the
    flag; whatever [enableIO]/[disableIO] calls follow, the pair (flag,
    snapshot) is the same after them and the whole run has read the
    attributes exactly once.  In any state [disableIO] leaves both static
    members as they are, and [enableIO] with the flag set leaves them as
    they are and only changes the buffering of [stdin]. *)
Theorem C5_snapshot_taken_once
        (w0 : world) (junk : termios) (rest : list api_call) :
  let snap := mkStatics true (snapshot_of w0 junk) in
  (exists tr, trace os (enableIO junk statics_init) w0 = N_tcgetattr :: tr) /\
  (exists w1, perform (enableIO junk) statics_init w0 = Done (tt, snap) w1) /\
  (exists w, run_calls (Enable junk :: rest) statics_init w0 = Done snap w) /\
  count_calls N_tcgetattr
              (calls_trace (Enable junk :: rest) statics_init w0) = 1%nat /\
  (forall s w, exists w', perform disableIO s w = Done (tt, s) w') /\
  (forall bk j w,
      perform (enableIO j) (mkStatics true bk) w
      = Done (tt, mkStatics true bk) (set_buf Unbuffered w)).
Proof.
  intros snap. split; [|split; [|split; [|split; [|split]]]].
  - destruct (@trace_enable_first world os junk statics_init w0 eq_refl)
      as (tr & E & _).
    exists tr. exact E.
  - destruct (engaged_after_first w0 junk) as (w1 & E & _).
    exists w1. exact E.
  - destruct (run_from_enable w0 junk rest) as (w & E & _).
    exists w. exact E.
  - cbn [calls_trace api_prog].
    destruct (engaged_after_first w0 junk) as (w1 & E & H1).
    unfold perform in E. rewrite E.
    destruct (@trace_enable_first world os junk statics_init w0 eq_refl)
      as (tr & Et & Ec).
    rewrite Et. unfold count_calls in *.
    cbn [app]. rewrite count_occ_cons_eq by reflexivity.
    rewrite count_occ_app, Ec.
    pose proof (calls_trace_engaged rest H1) as Z0.
    unfold count_calls in Z0. rewrite Z0. reflexivity.
  - intros s w. rewrite perform_disable. eexists. reflexivity.
  - intros bk j w. apply perform_enable_again. reflexivity.
Qed.

(** Since the flag stays set, [enableIO] after a [disableIO] does not put
    the terminal back into non-canonical mode: it only calls [setbuf]. *)
Remark reenable_leaves_canonical_mode :
  exists s w,
    run_calls [Enable junk_termios; Disable; Enable junk_termios]
              statics_init cooked_tty = Done s w /\
    canonical w = true /\
    stdin_buf w = Unbuffered.
Proof. do 2 eexists. repeat split. Qed.

(** ** [disableIO] before any [enableIO] *)

(** C8.  At process start, with descriptor 0 a terminal, [disableIO]
    completes without any sign of misuse, leaves the static members as
    they were (flag clear, snapshot all zero) and sets the terminal
    attributes to the zero-initialised snapshot. *)
Theorem C8_disable_first_writes_zero_snapshot (w0 : world) :
  stdin_tty w0 = true ->
  exists w,
    perform disableIO statics_init w0 = Done (tt, statics_init) w /\
    term_backup statics_init = termios_zero /\
    tty_attrs w = termios_zero /\
    trace os (disableIO statics_init) w0 = [N_setlinebuf; N_tcsetattr].
Proof.
  intros T. rewrite perform_disable, T, trace_disable.
  eexists. repeat split.
Qed.

Lemma C8_witness :
  stdin_tty cooked_tty = true /\
  exists w,
    perform disableIO statics_init cooked_tty = Done (tt, statics_init) w /\
    term_backup statics_init = termios_zero /\
    tty_attrs w = termios_zero /\
    trace os (disableIO statics_init) cooked_tty = [N_setlinebuf; N_tcsetattr].
Proof.
  split; [reflexivity|].
  apply (C8_disable_first_writes_zero_snapshot cooked_tty). reflexivity.
Defined.

(** ** The first [enableIO] *)

(** C10.  The first [enableIO] on a terminal writes back the attributes it
    read with one change: the ICANON bit of [c_lflag] is clear.  Every
    other bit of [c_lflag], ECHO among them, and every other field is as
    it was. *)
Theorem C10_first_enable_clears_only_ICANON
        (w0 : world) (junk : termios) (s0 : statics) :
  initialized s0 = false ->
  stdin_tty w0 = true ->
  tcflag_ok (c_lflag (tty_attrs w0)) ->
  exists s w,
    perform (enableIO junk) s0 w0 = Done (tt, s) w /\
    only_ICANON_cleared (tty_attrs w0) (tty_attrs w).
Proof.
  intros I T R. rewrite perform_enable_first, T by exact I.
  do 2 eexists. split; [reflexivity|].
  unfold only_ICANON_cleared, set_buf, set_attrs, clear_ICANON, set_c_lflag.
  cbn [tty_attrs c_iflag c_oflag c_cflag c_lflag c_line c_cc
       c_ispeed c_ospeed].
  repeat (split; [reflexivity|]).
  split; [|split; [|split]].
  - rewrite clear_ICANON_bits by exact R.
    rewrite Z.eqb_refl. apply andb_false_r.
  - rewrite clear_ICANON_bits by exact R. apply andb_true_r.
  - intros i Hi. rewrite clear_ICANON_bits by exact R.
    destruct (Z.eqb_spec i ICANON_bit) as [E|_]; [contradiction|].
    apply andb_true_r.
  - apply clear_ICANON_range. exact R.
Qed.

Lemma C10_witness :
  initialized statics_init = false /\
  stdin_tty cooked_tty = true /\
  tcflag_ok (c_lflag (tty_attrs cooked_tty)) /\
  exists s w,
    perform (enableIO junk_termios) statics_init cooked_tty = Done (tt, s) w /\
    only_ICANON_cleared (tty_attrs cooked_tty) (tty_attrs w).
Proof.
  assert (R : tcflag_ok (c_lflag (tty_attrs cooked_tty)))
    by (unfold tcflag_ok; simpl; lia).
  split; [reflexivity|]. split; [reflexivity|]. split; [exact R|].
  apply (@C10_first_enable_clears_only_ICANON
           cooked_tty junk_termios statics_init);
    [reflexivity | reflexivity | exact R].
Defined.

(** ** Echo *)

(** No call of [enableIO] changes whether the terminal echoes. *)
Lemma enableIO_keeps_echo (j : termios) (s : statics) (w : world) :
  tcflag_ok (c_lflag (tty_attrs w)) ->
  exists s' w', perform (enableIO j) s w = Done (tt, s') w' /\
                echo_on w' = echo_on w.
Proof.
  intros R. destruct (initialized s) eqn:I.
  - rewrite perform_enable_again by exact I.
    do 2 eexists. split; reflexivity.
  - rewrite perform_enable_first by exact I.
    destruct (stdin_tty w) eqn:T; do 2 eexists; (split; [reflexivity|]).
    + unfold echo_on, set_buf, set_attrs, clear_ICANON, set_c_lflag.
      cbn [stdin_tty tty_attrs c_lflag].
      rewrite clear_ICANON_bits by exact R. rewrite T. cbn.
      apply andb_true_r.
    + unfold echo_on. cbn [stdin_tty set_buf]. rewrite T. reflexivity.
Qed.

(** C2 (what the code does).  On a terminal that echoes, [enableIO] leaves
    echo on: a key typed afterwards is redisplayed by the terminal, and
    [_getch] then returns it. *)
Theorem C2_echo_stays_on_after_enable :
  exists s1 w1 w2,
    echo_on cooked_tty = true /\
    perform (enableIO junk_termios) statics_init cooked_tty
      = Done (tt, s1) w1 /\
    canonical w1 = false /\
    echo_on w1 = true /\
    perform (_getch true "000"%byte) s1 (deliver ["a"%byte] w1)
      = Done (97, s1) w2 /\
    echo_on w2 = true.
Proof.
  do 3 eexists. repeat split.
Qed.

(** ** [_getch] *)

Lemma byte_val_range (b : byte) : 0 <= byte_val b < 256.
Proof.
  unfold byte_val. pose proof (Byte.to_N_bounded b) as H.
  split; [apply N2Z.is_nonneg|].
  apply (N2Z.inj_le _ 255) in H. simpl in H. lia.
Qed.

(** C3 as stated fails: where plain [char] is signed (x86-64 Linux), the
    pending byte 195 (0xC3) comes back from [_getch] as -61. *)
Lemma C3_counterexample :
  let w := mkWorld true cooked_attrs ["195"%byte] Unbuffered in
  input w = ["195"%byte] /\
  byte_val "195"%byte = 195 /\
  perform (_getch true "000"%byte) statics_init w
    = Done (-61, statics_init) (set_input [] w) /\
  -61 <> byte_val "195"%byte.
Proof.
  cbv zeta. split; [reflexivity|]. split; [reflexivity|].
  split; [reflexivity|]. discriminate.
Qed.

(** C3 (amended).  With byte [b] pending first on descriptor 0, [_getch]
    completes, removes that byte alone from the pending input and returns
    the value of a plain [char] holding it: the byte's value when that is
    below 128 or plain [char] is unsigned, the byte's value minus 256
    otherwise.  For the character 'a' it returns 97 on every platform. *)
Theorem C3_getch_returns_char_value
        (char_signed : bool) (junk b : byte) (rest : list byte)
        (s : statics) (w : world) :
  input w = b :: rest ->
  exists r,
    perform (_getch char_signed junk) s w = Done (r, s) (set_input rest w) /\
    r = (if char_signed && (128 <=? byte_val b)
         then byte_val b - 256 else byte_val b) /\
    (byte_val b < 128 -> r = byte_val b) /\
    (char_signed = false -> r = byte_val b) /\
    (b = "a"%byte -> r = 97).
Proof.
  intros H. exists (char_to_int char_signed b).
  split; [apply perform_getch_pending; exact H|].
  unfold char_to_int. split; [reflexivity|]. split; [|split].
  - intros L. destruct (Z.leb_spec 128 (byte_val b)) as [G|_]; [lia|].
    rewrite andb_false_r. reflexivity.
  - intros ->. reflexivity.
  - intros ->. destruct char_signed; reflexivity.
Qed.

Lemma C3_witness :
  let w := mkWorld true cooked_attrs ["a"%byte; "195"%byte] Unbuffered in
  input w = "a"%byte :: ["195"%byte] /\
  exists r,
    perform (_getch true "000"%byte) statics_init w
      = Done (r, statics_init) (set_input ["195"%byte] w) /\
    r = (if true && (128 <=? byte_val "a"%byte)
         then byte_val "a"%byte - 256 else byte_val "a"%byte) /\
    (byte_val "a"%byte < 128 -> r = byte_val "a"%byte) /\
    (true = false -> r = byte_val "a"%byte) /\
    ("a"%byte = "a"%byte -> r = 97).
Proof.
  cbv zeta. split; [reflexivity|].
  apply (@C3_getch_returns_char_value true "000"%byte "a"%byte
           ["195"%byte] statics_init
           (mkWorld true cooked_attrs ["a"%byte; "195"%byte] Unbuffered)
           eq_refl).
Defined.

(** ** [_flush] and [_kbhit] *)

(** C6 as stated fails when descriptor 0 is not a terminal: on a pipe
    holding the bytes 'x' and 'y' the flush request fails, [_flush] returns
    all the same, [_kbhit] then returns 2 and [_getch] returns 'x' (120)
    without waiting.  Pending bytes alone do not give what the claim
    concludes. *)
Lemma C6_counterexample :
  (input piped_stdin = ["x"%byte; "y"%byte] /\
   perform _flush statics_init piped_stdin
   = Done (tt, statics_init) piped_stdin /\
   perform (_kbhit 7) statics_init piped_stdin
   = Done (2, statics_init) piped_stdin /\
   perform (_getch true "000"%byte) statics_init piped_stdin
   = Done (120, statics_init) (set_input ["y"%byte] piped_stdin)) /\
  ~ (forall (char_signed : bool) (jz : Z) (jb b : byte) (rest : list byte)
            (s : statics) (w0 : world),
        input w0 = b :: rest ->
        exists w,
          perform _flush s w0 = Done (tt, s) w /\
          perform (_kbhit jz) s w = Done (0, s) w /\
          perform (_getch char_signed jb) s w = Blocked).
Proof.
  split.
  - repeat split.
  - intros H.
    destruct (H true 7 "000"%byte "x"%byte ["y"%byte] statics_init
                piped_stdin eq_refl) as (w & F & K & _).
    vm_compute in F. injection F as <-.
    vm_compute in K. discriminate K.
Qed.

(** C6 (amended).  With descriptor 0 a terminal and bytes pending, [_flush]
    completes and leaves nothing pending: [_kbhit] then returns 0,
    [_getch] waits, and once further bytes arrive [_getch] returns the
    first of those, never one that was pending before the flush. *)
Theorem C6_flush_discards_pending
        (char_signed : bool) (jz : Z) (jb b : byte) (rest : list byte)
        (s : statics) (w0 : world) :
  stdin_tty w0 = true ->
  input w0 = b :: rest ->
  exists w,
    perform _flush s w0 = Done (tt, s) w /\
    input w = [] /\
    perform (_kbhit jz) s w = Done (0, s) w /\
    perform (_getch char_signed jb) s w = Blocked /\
    (forall b' more,
        perform (_getch char_signed jb) s (deliver (b' :: more) w)
        = Done (char_to_int char_signed b', s) (deliver more w)).
Proof.
  intros T P. rewrite perform_flush, T.
  eexists. split; [reflexivity|]. split; [reflexivity|].
  split; [reflexivity|]. split.
  - apply perform_getch_empty_tty; [reflexivity|exact T].
  - intros b' more.
    rewrite (@perform_getch_pending char_signed jb b' more) by reflexivity.
    reflexivity.
Qed.

Lemma C6_witness :
  let w0 := deliver ["q"%byte; "w"%byte] cooked_tty in
  stdin_tty w0 = true /\
  input w0 = ["q"%byte; "w"%byte] /\
  exists w,
    perform _flush statics_init w0 = Done (tt, statics_init) w /\
    input w = [] /\
    perform (_kbhit 7) statics_init w = Done (0, statics_init) w /\
    perform (_getch true "000"%byte) statics_init w = Blocked /\
    (forall b' more,
        perform (_getch true "000"%byte) statics_init (deliver (b' :: more) w)
        = Done (char_to_int true b', statics_init) (deliver more w)).
Proof.
  cbv zeta. split; [reflexivity|]. split; [reflexivity|].
  apply (@C6_flush_discards_pending true 7 "000"%byte "q"%byte ["w"%byte]
           statics_init (deliver ["q"%byte; "w"%byte] cooked_tty));
    reflexivity.
Defined.

(** Outside the terminal case: on a pipe the flush request fails, which
    [_flush] does not notice, and the pending bytes stay. *)
Lemma flush_on_pipe_keeps_input :
  perform _flush statics_init piped_stdin = Done (tt, statics_init) piped_stdin.
Proof. reflexivity. Qed.

(** C7.  [_kbhit] never waits, changes nothing and returns the number of
    bytes pending on descriptor 0.  Right after [enableIO] with nothing
    pending it returns 0.  With [n >= 1] bytes pending it returns [n]; a
    [_getch] then takes exactly one byte, the oldest, and the next
    [_kbhit] returns [n - 1]. *)
Theorem C7_kbhit_counts_pending
        (char_signed : bool) (jt : termios) (jz : Z) (jb b : byte)
        (bs : list byte) (s s' : statics) (w0 w : world) :
  input w0 = [] ->
  input w = b :: bs ->
  (forall x u, perform (_kbhit jz) u x
               = Done (Z.of_nat (length (input x)), u) x) /\
  (exists s1 w1,
      perform (enableIO jt) s w0 = Done (tt, s1) w1 /\
      perform (_kbhit jz) s1 w1 = Done (0, s1) w1) /\
  (exists n r w2,
      perform (_kbhit jz) s' w = Done (n, s') w /\
      1 <= n /\
      perform (_getch char_signed jb) s' w = Done (r, s') w2 /\
      input w2 = bs /\
      perform (_kbhit jz) s' w2 = Done (n - 1, s') w2).
Proof.
  intros E P. split; [|split].
  - intros x u. apply perform_kbhit.
  - destruct (initialized s) eqn:I.
    + rewrite perform_enable_again by exact I.
      do 2 eexists. split; [reflexivity|].
      rewrite perform_kbhit. simpl. rewrite E. reflexivity.
    + rewrite perform_enable_first by exact I.
      destruct (stdin_tty w0); do 2 eexists; (split; [reflexivity|]);
        rewrite perform_kbhit; simpl; rewrite E; reflexivity.
  - exists (Z.of_nat (length (input w))), (char_to_int char_signed b),
      (set_input bs w).
    split; [apply perform_kbhit|].
    split; [rewrite P; simpl length; lia|].
    split; [apply perform_getch_pending; exact P|].
    split; [reflexivity|].
    rewrite perform_kbhit. simpl input. rewrite P. simpl length.
    do 2 f_equal. lia.
Qed.

Lemma C7_witness :
  let w := deliver ["q"%byte; "w"%byte] cooked_tty in
  input cooked_tty = [] /\
  input w = ["q"%byte; "w"%byte] /\
  (exists s1 w1,
      perform (enableIO junk_termios) statics_init cooked_tty
        = Done (tt, s1) w1 /\
      perform (_kbhit 7) s1 w1 = Done (0, s1) w1) /\
  (exists n r w2,
      perform (_kbhit 7) statics_init w = Done (n, statics_init) w /\
      1 <= n /\
      perform (_getch true "000"%byte) statics_init w
        = Done (r, statics_init) w2 /\
      input w2 = ["w"%byte] /\
      perform (_kbhit 7) statics_init w2 = Done (n - 1, statics_init) w2).
Proof.
  cbv zeta. split; [reflexivity|]. split; [reflexivity|].
  apply (@C7_kbhit_counts_pending true junk_termios 7 "000"%byte "q"%byte
           ["w"%byte] statics_init statics_init cooked_tty
           (deliver ["q"%byte; "w"%byte] cooked_tty) eq_refl eq_refl).
Defined.

(** ** Return values of the system calls *)

Lemma enableIO_ignores_status (j : termios) : ignores_status (enableIO j).
Proof.
  intros W h st [[|] bk] w;
    unfold enableIO, bind, call, get_initialized, reporting; cbn;
    answer h; (split; [reflexivity|split; [reflexivity|no_repeat]]).
Qed.

Lemma disableIO_ignores_status : ignores_status disableIO.
Proof.
  intros W h st s w.
  unfold disableIO, bind, call, get_term_backup, reporting; cbn;
    answer h; (split; [reflexivity|split; [reflexivity|no_repeat]]).
Qed.

Lemma kbhit_ignores_status (j : Z) : ignores_status (_kbhit j).
Proof.
  intros W h st s w.
  unfold _kbhit, bind, call, reporting; cbn;
    answer h; (split; [reflexivity|split; [reflexivity|no_repeat]]).
Qed.

Lemma getch_ignores_status (sg : bool) (j : byte) :
  ignores_status (_getch sg j).
Proof.
  intros W h st s w.
  unfold _getch, bind, call, reporting; cbn;
    answer h; (split; [reflexivity|split; [reflexivity|no_repeat]]).
Qed.

Lemma flush_ignores_status : ignores_status _flush.
Proof.
  intros W h st s w.
  unfold _flush, bind, call, reporting; cbn;
    answer h; (split; [reflexivity|split; [reflexivity|no_repeat]]).
Qed.

(** C9.  Whatever the operating system answers, each of the five member
    functions ends the same way, with the same result, static members and
    calls issued, as when every system call reports success (or any other
    value), and issues none of its calls twice; [enableIO], [disableIO] and
    [_flush] return nothing, [_kbhit] and [_getch] return what the call
    left in the buffer whether or not the call failed. *)
Theorem C9_call_results_ignored
        (jt : termios) (jz : Z) (jb : byte) (char_signed : bool) :
  ignores_status (enableIO jt) /\
  ignores_status disableIO /\
  ignores_status (_kbhit jz) /\
  ignores_status (_getch char_signed jb) /\
  ignores_status _flush /\
  (forall W (h : handler W) s w,
      exec h (_kbhit jz s) w
      = match h _ (IoctlFIONREAD STDIN jz) w with
        | Some ((_, bytesWaiting), w') => Done (bytesWaiting, s) w'
        | None => Blocked
        end) /\
  (forall W (h : handler W) s w,
      exec h (_getch char_signed jb s) w
      = match h _ (Read1 STDIN jb) w with
        | Some ((_, buf0), w') => Done (char_to_int char_signed buf0, s) w'
        | None => Blocked
        end).
Proof.
  split; [apply enableIO_ignores_status|].
  split; [apply disableIO_ignores_status|].
  split; [apply kbhit_ignores_status|].
  split; [apply getch_ignores_status|].
  split; [apply flush_ignores_status|].
  split; intros W h s w;
    unfold _kbhit, _getch, bind, call; cbn; answer h; reflexivity.
Qed.

(** * Further properties of the member functions *)

(** ** Terminal mode over a whole run *)

Lemma run_calls_attrs (w0 : world) (junk : termios) (cs : list api_call) :
  forall s w, engaged w0 junk s w ->
  exists w', run_calls cs s w = Done s w' /\
             engaged w0 junk s w' /\
             tty_attrs w' = if stdin_tty w0 && existsb is_disable cs
                            then tty_attrs w0 else tty_attrs w.
Proof.
  induction cs as [|c cs IH]; intros s w H.
  - exists w. rewrite andb_false_r. auto.
  - cbn [run_calls existsb].
    destruct (engaged_step c H) as (w1 & E & H1). rewrite E.
    destruct (IH s w1 H1) as (w' & R & H' & A).
    exists w'. split; [exact R|]. split; [exact H'|].
    rewrite A. clear IH R H' A.
    destruct H as (Hs & Ht & Ha).
    destruct c as [j|]; cbn [api_prog is_disable orb] in *.
    + pose proof (@perform_enable_again j s w) as P. unfold perform in P.
      rewrite P in E by (subst s; reflexivity).
      injection E as <-. reflexivity.
    + pose proof (perform_disable s w) as P. unfold perform in P.
      rewrite P, Ht in E. injection E as <-.
      subst s. unfold snapshot_of. cbn [term_backup].
      destruct (stdin_tty w0) eqn:T; cbn.
      * destruct (existsb is_disable cs); reflexivity.
      * reflexivity.
Qed.

(** X1.  From process start, after [enableIO] and any further
    [enableIO]/[disableIO] calls, a terminal is in the mode the first
    [enableIO] set (attributes as before with ICANON clear) as long as no
    [disableIO] has run, and has its attributes from before the first
    [enableIO] from the first [disableIO] on: no later [enableIO] clears
    ICANON again. *)
Theorem X1_raw_mode_only_until_first_disable
        (w0 : world) (junk : termios) (cs : list api_call) :
  exists s w,
    run_calls (Enable junk :: cs) statics_init w0 = Done s w /\
    tty_attrs w = attrs_after w0 cs.
Proof.
  destruct (engaged_after_first w0 junk) as (w1 & E & H1).
  destruct (run_calls_attrs cs H1) as (w & R & _ & A).
  exists (mkStatics true (snapshot_of w0 junk)), w.
  cbn [run_calls api_prog]. pose proof E as E'.
  unfold perform in E'. rewrite E'.
  split; [exact R|]. rewrite A. unfold attrs_after.
  rewrite perform_enable_first in E by reflexivity.
  destruct (stdin_tty w0) eqn:T; injection E as _ Ew; rewrite <- Ew; cbn;
    destruct (existsb is_disable cs); reflexivity.
Qed.

Lemma zeroed_step (c : api_call) (s : statics) (w : world) :
  stdin_tty w = true -> tty_attrs w = termios_zero ->
  term_backup s = termios_zero ->
  exists s' w', exec os (api_prog c s) w = Done (tt, s') w' /\
                stdin_tty w' = true /\ tty_attrs w' = termios_zero /\
                term_backup s' = termios_zero.
Proof.
  intros T A B. destruct c as [j|]; cbn [api_prog].
  - destruct (initialized s) eqn:I.
    + pose proof (@perform_enable_again j s w I) as P. unfold perform in P.
      rewrite P. do 2 eexists. split; [reflexivity|]. auto.
    + pose proof (@perform_enable_first j s w I) as P. unfold perform in P.
      rewrite P, T, A. do 2 eexists. split; [reflexivity|]. cbn. auto.
  - pose proof (perform_disable s w) as P. unfold perform in P.
    rewrite P, T, B. do 2 eexists. split; [reflexivity|]. cbn. auto.
Qed.

Lemma zeroed_run (cs : list api_call) :
  forall s w,
  stdin_tty w = true -> tty_attrs w = termios_zero ->
  term_backup s = termios_zero ->
  exists s' w', run_calls cs s w = Done s' w' /\ tty_attrs w' = termios_zero.
Proof.
  induction cs as [|c cs IH]; intros s w T A B.
  - exists s, w. auto.
  - cbn [run_calls].
    destruct (@zeroed_step c s w T A B) as (s1 & w1 & E & T1 & A1 & B1).
    rewrite E. apply IH; assumption.
Qed.

(** X2.  On a terminal, once [disableIO] has run before any [enableIO],
    the terminal attributes are all zero after every later
    [enableIO]/[disableIO] call: the first [enableIO] then snapshots the
    zeroed set, so nothing brings the original attributes back. *)
Theorem X2_disable_first_zeroes_for_good
        (w0 : world) (cs : list api_call) :
  stdin_tty w0 = true ->
  exists s w,
    run_calls (Disable :: cs) statics_init w0 = Done s w /\
    tty_attrs w = termios_zero.
Proof.
  intros T. cbn [run_calls api_prog].
  pose proof (perform_disable statics_init w0) as P. unfold perform in P.
  rewrite P, T. apply zeroed_run; [exact T | reflexivity | reflexivity].
Qed.

Lemma X2_witness :
  stdin_tty cooked_tty = true /\
  exists s w,
    run_calls (Disable :: [Enable junk_termios; Disable; Enable junk_termios])
              statics_init cooked_tty = Done s w /\
    tty_attrs w = termios_zero.
Proof.
  split; [reflexivity|].
  apply (@X2_disable_first_zeroes_for_good cooked_tty
           [Enable junk_termios; Disable; Enable junk_termios]).
  reflexivity.
Defined.

(** ** What [enableIO] and [disableIO] leave alone *)

Lemma api_step (c : api_call) (s : statics) (w : world) :
  exists s' w',
    exec os (api_prog c s) w = Done (tt, s') w' /\
    input w' = input w /\
    stdin_buf w' = buf_after c.
Proof.
  destruct c as [j|]; cbn [api_prog buf_after].
  - destruct (initialized s) eqn:I.
    + pose proof (@perform_enable_again j s w I) as P. unfold perform in P.
      rewrite P. do 2 eexists. split; [reflexivity|]. split; reflexivity.
    + pose proof (@perform_enable_first j s w I) as P. unfold perform in P.
      rewrite P. destruct (stdin_tty w); do 2 eexists;
        (split; [reflexivity|]); split; reflexivity.
  - pose proof (perform_disable s w) as P. unfold perform in P.
    rewrite P. destruct (stdin_tty w); do 2 eexists;
      (split; [reflexivity|]); split; reflexivity.
Qed.

Lemma run_calls_keep_input (cs : list api_call) :
  forall s0 w0, exists s w,
    run_calls cs s0 w0 = Done s w /\ input w = input w0.
Proof.
  induction cs as [|c cs IH]; intros s0 w0.
  - exists s0, w0. split; reflexivity.
  - cbn [run_calls].
    destruct (api_step c s0 w0) as (s1 & w1 & E & I & _). rewrite E.
    destruct (IH s1 w1) as (s & w & R & I'). exists s, w.
    split; [exact R|]. congruence.
Qed.

(** X3.  From any state of the static members and of the system, every
    sequence of [enableIO]/[disableIO] calls runs to completion without
    waiting, and the bytes pending on descriptor 0 are the same afterwards:
    switching modes never discards a keystroke. *)
Theorem X3_mode_switches_keep_pending_input
        (cs : list api_call) (s0 : statics) (w0 : world) :
  exists s w,
    run_calls cs s0 w0 = Done s w /\ input w = input w0.
Proof. apply run_calls_keep_input. Qed.

(** X4.  The buffering mode of [stdin] after a sequence of calls is set by
    the last call alone: unbuffered after [enableIO], line buffered after
    [disableIO].  The mode [stdin] had before the first [enableIO] (full
    buffering, say) is not what [disableIO] puts back. *)
Theorem X4_stdin_buffering_follows_last_call
        (cs : list api_call) (c : api_call) (s0 : statics) (w0 : world) :
  exists s w,
    run_calls (cs ++ [c]) s0 w0 = Done s w /\ stdin_buf w = buf_after c.
Proof.
  rewrite run_calls_app.
  destruct (run_calls_keep_input cs s0 w0) as (s1 & w1 & R & _).
  rewrite R. cbn [run_calls].
  destruct (api_step c s1 w1) as (s & w & E & _ & B). rewrite E.
  exists s, w. split; [reflexivity|exact B].
Qed.

(** ** Reading several keys *)

Lemma exec_pbind (W A B : Type) (h : handler W) (p : prog A)
      (f : A -> prog B) :
  forall w,
    exec h (pbind p f) w =
    match exec h p w with
    | Done a w' => exec h (f a) w'
    | Blocked   => Blocked
    end.
Proof.
  induction p as [a|X c k IH]; intros w; cbn.
  - reflexivity.
  - destruct (h X c w) as [[x w']|]; [apply IH|reflexivity].
Qed.

Lemma perform_bind (A B : Type) (m : M A) (f : A -> M B)
      (s : statics) (w : world) :
  perform (bind m f) s w =
  match perform m s w with
  | Done (a, s') w' => perform (f a) s' w'
  | Blocked         => Blocked
  end.
Proof.
  unfold perform, bind. rewrite exec_pbind.
  destruct (exec os (m s) w) as [[a s'] w'|]; reflexivity.
Qed.

Lemma perform_getch_n (sg : bool) (junks : list byte) :
  forall (bs rest : list byte) (s : statics) (w : world),
    input w = bs ++ rest ->
    length junks = length bs ->
    perform (getch_n sg junks) s w
    = Done (map (char_to_int sg) bs, s) (set_input rest w).
Proof.
  induction junks as [|j js IH]; intros bs rest s w I L.
  - destruct bs; [|discriminate]. cbn in I. cbn.
    unfold perform. cbn. destruct w; cbn in *. subst. reflexivity.
  - destruct bs as [|b bs]; [discriminate|]. cbn in I, L.
    cbn [getch_n]. rewrite perform_bind.
    rewrite (@perform_getch_pending sg j b (bs ++ rest) s w I).
    rewrite perform_bind.
    rewrite (IH bs rest s (set_input (bs ++ rest) w)) by (cbn; congruence).
    reflexivity.
Qed.

(** X5.  Repeated [_getch] calls hand out the pending bytes oldest first:
    with the bytes [bs] pending in front of [rest], as many calls as [bs]
    has bytes all complete, return the values of [bs] in order and leave
    exactly [rest] pending. *)
Theorem X5_getch_reads_in_arrival_order
        (char_signed : bool) (junks bs rest : list byte)
        (s : statics) (w : world) :
  input w = bs ++ rest ->
  length junks = length bs ->
  perform (getch_n char_signed junks) s w
  = Done (map (char_to_int char_signed) bs, s) (set_input rest w).
Proof. apply perform_getch_n. Qed.

Lemma X5_witness :
  let w := deliver ["027"%byte; "["%byte; "A"%byte; "q"%byte] cooked_tty in
  input w = ["027"%byte; "["%byte; "A"%byte] ++ ["q"%byte] /\
  length ["000"%byte; "000"%byte; "000"%byte]
  = length ["027"%byte; "["%byte; "A"%byte] /\
  perform (getch_n true ["000"%byte; "000"%byte; "000"%byte]) statics_init w
  = Done (map (char_to_int true) ["027"%byte; "["%byte; "A"%byte],
          statics_init)
         (set_input ["q"%byte] w).
Proof.
  cbv zeta. split; [reflexivity|]. split; [reflexivity|].
  apply (@X5_getch_reads_in_arrival_order true
           ["000"%byte; "000"%byte; "000"%byte]
           ["027"%byte; "["%byte; "A"%byte] ["q"%byte] statics_init
           (deliver ["027"%byte; "["%byte; "A"%byte; "q"%byte] cooked_tty));
    reflexivity.
Defined.

(** X6.  On a terminal, [_kbhit] reports exactly how many [_getch] calls
    can be made without waiting: that many calls complete and return all
    pending bytes, and the next [_getch] waits. *)
Theorem X6_kbhit_bounds_nonblocking_reads
        (char_signed : bool) (jz : Z) (junks : list byte) (jb : byte)
        (s : statics) (w : world) :
  stdin_tty w = true ->
  length junks = length (input w) ->
  exists w',
    perform (_kbhit jz) s w = Done (Z.of_nat (length junks), s) w /\
    perform (getch_n char_signed junks) s w
    = Done (map (char_to_int char_signed) (input w), s) w' /\
    perform (_kbhit jz) s w' = Done (0, s) w' /\
    perform (_getch char_signed jb) s w' = Blocked.
Proof.
  intros T L. exists (set_input [] w).
  split; [rewrite perform_kbhit, L; reflexivity|].
  split; [apply perform_getch_n; [symmetry; apply app_nil_r|exact L]|].
  split; [reflexivity|].
  apply perform_getch_empty_tty; [reflexivity|exact T].
Qed.

Lemma X6_witness :
  let w := deliver ["q"%byte; "w"%byte] cooked_tty in
  stdin_tty w = true /\
  length ["000"%byte; "000"%byte] = length (input w) /\
  exists w',
    perform (_kbhit 7) statics_init w
    = Done (Z.of_nat (length ["000"%byte; "000"%byte]), statics_init) w /\
    perform (getch_n true ["000"%byte; "000"%byte]) statics_init w
    = Done (map (char_to_int true) (input w), statics_init) w' /\
    perform (_kbhit 7) statics_init w' = Done (0, statics_init) w' /\
    perform (_getch true "000"%byte) statics_init w' = Blocked.
Proof.
  cbv zeta. split; [reflexivity|]. split; [reflexivity|].
  apply (@X6_kbhit_bounds_nonblocking_reads true 7
           ["000"%byte; "000"%byte] "000"%byte statics_init
           (deliver ["q"%byte; "w"%byte] cooked_tty));
    reflexivity.
Defined.

(** ** Standard input that is not a terminal *)

(** X7.  At the end of a redirected standard input [_getch] does not wait
    and signals nothing: it returns whatever its buffer held on entry,
    converted like a byte that was read, and changes nothing. *)
Theorem X7_getch_at_end_of_input_returns_buffer_junk
        (char_signed : bool) (junk : byte) (s : statics) (w : world) :
  stdin_tty w = false ->
  input w = [] ->
  perform (_getch char_signed junk) s w
  = Done (char_to_int char_signed junk, s) w.
Proof.
  intros T I. unfold perform, _getch, bind, call; cbn.
  unfold read1; cbn. rewrite I, T. reflexivity.
Qed.

Lemma X7_witness :
  let w := mkWorld false cooked_attrs [] FullyBuffered in
  stdin_tty w = false /\
  input w = [] /\
  perform (_getch true "a"%byte) statics_init w
  = Done (char_to_int true "a"%byte, statics_init) w.
Proof.
  cbv zeta. split; [reflexivity|]. split; [reflexivity|].
  apply (@X7_getch_at_end_of_input_returns_buffer_junk true "a"%byte
           statics_init (mkWorld false cooked_attrs [] FullyBuffered));
    reflexivity.
Defined.

(** X8.  When descriptor 0 is not a terminal, [_flush] changes nothing:
    the bytes that were pending are still counted by [_kbhit] and the
    oldest of them is what the next [_getch] returns. *)
Theorem X8_flush_without_terminal_keeps_bytes
        (char_signed : bool) (jz : Z) (jb b : byte) (rest : list byte)
        (s : statics) (w : world) :
  stdin_tty w = false ->
  input w = b :: rest ->
  perform _flush s w = Done (tt, s) w /\
  perform (bind _flush (fun _ => _kbhit jz)) s w
  = Done (1 + Z.of_nat (length rest), s) w /\
  perform (bind _flush (fun _ => _getch char_signed jb)) s w
  = Done (char_to_int char_signed b, s) (set_input rest w).
Proof.
  intros T I.
  assert (F : perform _flush s w = Done (tt, s) w)
    by (rewrite perform_flush, T; reflexivity).
  split; [exact F|]. split.
  - rewrite perform_bind, F, perform_kbhit, I. cbn [length].
    do 2 f_equal. lia.
  - rewrite perform_bind, F. apply perform_getch_pending. exact I.
Qed.

Lemma X8_witness :
  stdin_tty piped_stdin = false /\
  input piped_stdin = "x"%byte :: ["y"%byte] /\
  perform _flush statics_init piped_stdin = Done (tt, statics_init) piped_stdin /\
  perform (bind _flush (fun _ => _kbhit 7)) statics_init piped_stdin
  = Done (1 + Z.of_nat (length ["y"%byte]), statics_init) piped_stdin /\
  perform (bind _flush (fun _ => _getch true "000"%byte))
          statics_init piped_stdin
  = Done (char_to_int true "x"%byte, statics_init)
         (set_input ["y"%byte] piped_stdin).
Proof.
  split; [reflexivity|]. split; [reflexivity|].
  apply (@X8_flush_without_terminal_keeps_bytes true 7 "000"%byte "x"%byte
           ["y"%byte] statics_init piped_stdin);
    reflexivity.
Defined.

(** ** The value [_getch] returns *)

Lemma char_to_int_mod (sg : bool) (b : byte) :
  char_to_int sg b mod 256 = byte_val b.
Proof.
  pose proof (byte_val_range b) as R. unfold char_to_int.
  destruct (sg && (128 <=? byte_val b)).
  - replace (byte_val b - 256) with (byte_val b + (-1) * 256) by lia.
    rewrite Z.mod_add by lia. apply Z.mod_small. exact R.
  - apply Z.mod_small. exact R.
Qed.

Lemma char_to_int_range (sg : bool) (b : byte) :
  -128 <= char_to_int sg b <= 255.
Proof.
  pose proof (byte_val_range b) as R. unfold char_to_int.
  destruct sg; cbn [andb]; [|lia].
  destruct (Z.leb_spec 128 (byte_val b)); lia.
Qed.

(** X9.  Whatever the signedness of plain [char], the value [_getch]
    returns for a pending byte lies between -128 and 255 and its low
    eight bits are the byte: masking the result with 255 gives back the
    byte's value, so two different bytes never give the same result. *)
Theorem X9_getch_result_determines_byte
        (char_signed : bool) (junk b : byte) (rest : list byte)
        (s : statics) (w : world) :
  input w = b :: rest ->
  exists r w',
    perform (_getch char_signed junk) s w = Done (r, s) w' /\
    -128 <= r <= 255 /\
    Z.land r 255 = byte_val b /\
    (forall b', r = char_to_int char_signed b' -> b' = b).
Proof.
  intros I. exists (char_to_int char_signed b), (set_input rest w).
  split; [apply perform_getch_pending; exact I|].
  split; [apply char_to_int_range|]. split.
  - change 255 with (Z.ones 8). rewrite Z.land_ones by lia.
    apply char_to_int_mod.
  - intros b' E.
    assert (V : byte_val b' = byte_val b)
      by (rewrite <- (char_to_int_mod char_signed b'),
                  <- (char_to_int_mod char_signed b), E; reflexivity).
    unfold byte_val in V. apply N2Z.inj in V.
    assert (S : Some b' = Some b)
      by (rewrite <- (Byte.of_to_N b'), <- (Byte.of_to_N b), V; reflexivity).
    injection S as ->. reflexivity.
Qed.

Lemma X9_witness :
  let w := mkWorld true cooked_attrs ["195"%byte] Unbuffered in
  input w = "195"%byte :: [] /\
  exists r w',
    perform (_getch true "000"%byte) statics_init w
    = Done (r, statics_init) w' /\
    -128 <= r <= 255 /\
    Z.land r 255 = byte_val "195"%byte /\
    (forall b', r = char_to_int true b' -> b' = "195"%byte).
Proof.
  cbv zeta. split; [reflexivity|].
  apply (@X9_getch_result_determines_byte true "000"%byte "195"%byte []
           statics_init
           (mkWorld true cooked_attrs ["195"%byte] Unbuffered)).
  reflexivity.
Defined.

(** ** What [_kbhit], [_getch] and [_flush] leave alone *)

(** X10.  In every state, with or without a previous [enableIO], a
    completed [_kbhit], [_getch] or [_flush] has changed neither static
    member, nor the terminal attributes, nor the buffering mode of
    [stdin]: the pending input is all they can affect. *)
Theorem X10_input_functions_touch_only_input
        (char_signed : bool) (jz : Z) (jb : byte) (s : statics) (w : world) :
  only_input_changed s w (perform (_kbhit jz) s w) /\
  only_input_changed s w (perform (_getch char_signed jb) s w) /\
  only_input_changed s w (perform _flush s w).
Proof.
  split; [|split].
  - rewrite perform_kbhit. cbn. auto.
  - unfold perform, _getch, bind, call; cbn. unfold read1; cbn.
    destruct (input w) as [|b rest]; [destruct (stdin_tty w)|]; cbn; auto.
  - rewrite perform_flush. destruct (stdin_tty w) eqn:T; cbn; auto.
Qed.

(** ** The static members under failing system calls *)

(** X11.  In any operating system, whatever its calls answer: a completed
    [enableIO] leaves the flag set, even when [tcgetattr] or [tcsetattr]
    failed; if the flag was clear, the snapshot is what the [tcgetattr]
    buffer held after the call (the uninitialised local if the call wrote
    nothing); if the flag was set, both static members are unchanged.  A
    completed [disableIO] never changes either. *)
Theorem X11_flag_set_whatever_the_calls_return
        (W : Type) (h : handler W) (junk : termios) (s : statics) (w : W) :
  match exec h (enableIO junk s) w with
  | Done (_, s') _ =>
      initialized s' = true /\
      (if initialized s then s' = s
       else match h _ (Tcgetattr STDIN junk) w with
            | Some ((_, t), _) => term_backup s' = t
            | None => False
            end)
  | Blocked => True
  end /\
  match exec h (disableIO s) w with
  | Done (_, s') _ => s' = s
  | Blocked => True
  end.
Proof.
  split.
  - destruct s as [[|] bk];
      unfold enableIO, bind, call, get_initialized; cbn.
    + answer h; auto.
    + destruct (h _ (Tcgetattr STDIN junk) w) as [[[st t] w1]|]; cbn; auto.
      answer h; auto.
  - unfold disableIO, bind, call, get_term_backup; cbn. answer h; auto.
Qed.

(** ** A terminal that is already non-canonical *)

Lemma clear_ICANON_noop (t : termios) :
  tcflag_ok (c_lflag t) ->
  Z.testbit (c_lflag t) ICANON_bit = false ->
  clear_ICANON t = t.
Proof.
  intros R C. destruct t as [i o c l ln cc isp osp].
  unfold clear_ICANON, set_c_lflag. cbn [c_iflag c_oflag c_cflag c_lflag
    c_line c_cc c_ispeed c_ospeed] in *. f_equal.
  apply Z.bits_inj. intros n. rewrite clear_ICANON_bits by exact R.
  destruct (Z.eqb_spec n ICANON_bit) as [->|_].
  - rewrite C. reflexivity.
  - apply andb_true_r.
Qed.

(** X12.  On a terminal whose ICANON flag is already clear, the first
    [enableIO] writes the attributes back exactly as it read them: the
    terminal attribute set is unchanged, the snapshot equals it, and only
    the buffering of [stdin] differs afterwards. *)
Theorem X12_enable_on_raw_terminal_changes_no_attribute
        (junk : termios) (s0 : statics) (w0 : world) :
  initialized s0 = false ->
  stdin_tty w0 = true ->
  tcflag_ok (c_lflag (tty_attrs w0)) ->
  Z.testbit (c_lflag (tty_attrs w0)) ICANON_bit = false ->
  perform (enableIO junk) s0 w0
  = Done (tt, mkStatics true (tty_attrs w0)) (set_buf Unbuffered w0).
Proof.
  intros I T R C. rewrite perform_enable_first, T by exact I.
  rewrite clear_ICANON_noop by assumption.
  destruct w0; reflexivity.
Qed.

Lemma X12_witness :
  let w0 := mkWorld true (clear_ICANON cooked_attrs) [] LineBuffered in
  initialized statics_init = false /\
  stdin_tty w0 = true /\
  tcflag_ok (c_lflag (tty_attrs w0)) /\
  Z.testbit (c_lflag (tty_attrs w0)) ICANON_bit = false /\
  perform (enableIO junk_termios) statics_init w0
  = Done (tt, mkStatics true (tty_attrs w0)) (set_buf Unbuffered w0).
Proof.
  cbv zeta.
  assert (R : tcflag_ok (c_lflag (clear_ICANON cooked_attrs)))
    by (unfold tcflag_ok; vm_compute; split; [discriminate|reflexivity]).
  split; [reflexivity|]. split; [reflexivity|]. split; [exact R|].
  split; [reflexivity|].
  apply (@X12_enable_on_raw_terminal_changes_no_attribute junk_termios
           statics_init
           (mkWorld true (clear_ICANON cooked_attrs) [] LineBuffered));
    [reflexivity | reflexivity | exact R | reflexivity].
Defined.
